(** * connexion.apis.flask_api: the Flask binding of Connexion

    A shallow embedding of [src/connexion/apis/flask_api.py]: the
    translation between Flask requests/responses and Connexion's canonical
    ones ([FlaskApi]) and the per-route adapter ([FlaskOperation]).

    Python values are dynamically typed, so they are embedded in one
    inductive type [pyval]; a Python exception is the [Raise] branch of
    the [result] monad.  Collaborators that live outside the file
    (the JSON codec, [is_json_mimetype], [FORM_CONTENT_TYPES],
    [_prepare_body_and_status_code], the decorator pipeline) are
    parameters of the sections that use them. *)

From Stdlib Require Import ZArith String List Bool Lia.
From stdpp Require Import base option gmap strings fin_maps pretty.
Import ListNotations.

Set Warnings "-register-all".

Local Open Scope Z_scope.
Local Open Scope string_scope.

(** ** Python values, truthiness and exceptions *)

Definition bytes : Type := list Byte.byte.

(** werkzeug.wrappers.Response, the class of every flask.Response: the
    members that flask_api.py reads.  The body of a response object is its
    [response] attribute, an iterable of byte chunks: either a list or
    tuple (a [Sequence], whose length is known) or any other iterable such
    as a generator or a file wrapper (an [Iterator], given here by the
    chunks it yields). *)
Module FlaskResponse.

Inductive iterable : Type :=
| Sequence (chunks : list bytes)
| Iterator (chunks : list bytes).

Record t : Type := mk {
  status_code : Z;
  mimetype : option string;
  content_type : option string;
  headers : list (string * string);
  response : iterable;
  direct_passthrough : bool;
  implicit_sequence_conversion : bool
}.

Definition chunks_of (i : iterable) : list bytes :=
  match i with Sequence cs | Iterator cs => cs end.

Definition set_response (r : t) (i : iterable) : t :=
  {| status_code := status_code r; mimetype := mimetype r;
     content_type := content_type r; headers := headers r;
     response := i; direct_passthrough := direct_passthrough r;
     implicit_sequence_conversion := implicit_sequence_conversion r |}.

(** The [is_sequence] property: the body is a list or a tuple. *)
Definition is_sequence (r : t) : bool :=
  match response r with Sequence _ => true | Iterator _ => false end.

(** The [is_streamed] property: [len(self.response)] is undefined, which is
    the case exactly for an iterable that is not a sequence. *)
Definition is_streamed (r : t) : bool :=
  match response r with Sequence _ => false | Iterator _ => true end.

End FlaskResponse.

Inductive pyval : Type :=
| PNone
| PBool (b : bool)
| PInt (z : Z)
| PStr (s : string)
| PBytes (b : bytes)
| PList (l : list pyval)
| PTuple (l : list pyval)
| PDict (d : list (string * pyval))
| PHeaders (h : list (string * string))
| PMultiDict (items : list (string * string))
| PResponse (r : FlaskResponse.t).

Inductive exn : Type :=
| RuntimeError
| TypeError
| ValueError
| BadRequest.

Inductive result (A : Type) : Type :=
| Ok (a : A)
| Raise (e : exn).

Arguments Ok {A} a.
Arguments Raise {A} e.

#[global] Instance result_ret : MRet result := fun _ a => Ok a.
#[global] Instance result_bind : MBind result :=
  fun _ _ f m => match m with Ok a => f a | Raise e => Raise e end.

Definition returns {A : Type} (m : result A) : bool :=
  match m with Ok _ => true | Raise _ => false end.

(** Python's truth value testing, for the values that occur here. *)
Definition py_truthy (v : pyval) : bool :=
  match v with
  | PNone => false
  | PBool b => b
  | PInt z => negb (Z.eqb z 0)
  | PStr s => negb (String.eqb s EmptyString)
  | PBytes b => match b with [] => false | _ => true end
  | PList l | PTuple l => match l with [] => false | _ => true end
  | PDict d => match d with [] => false | _ => true end
  | PHeaders h | PMultiDict h => match h with [] => false | _ => true end
  | PResponse _ => true
  end.

(** [a or b] *)
Definition py_or (a b : pyval) : pyval := if py_truthy a then a else b.

(** [v is None] *)
Definition is_None (v : pyval) : bool :=
  match v with PNone => true | _ => false end.

(** [isinstance(v, int)]: an integer; a bool is an int in Python. *)
Definition is_integer (v : pyval) : bool :=
  match v with PInt _ | PBool _ => true | _ => false end.

(** Whether a value is a mapping: a dict, a header collection or a
    multi-dict. *)
Definition is_mapping (v : pyval) : bool :=
  match v with PDict _ | PHeaders _ | PMultiDict _ => true | _ => false end.

Definition of_option {A : Type} (inj : A -> pyval) (o : option A) : pyval :=
  match o with Some a => inj a | None => PNone end.

(** ** The framework response's [get_data] *)

Module FlaskResponseMethods.
Import FlaskResponse.

(** [_ensure_sequence]: a sequence is left alone; an iterator is refused
    for a direct-passthrough response or when implicit conversion is
    switched off, and is otherwise drained into a list that replaces it
    ([make_sequence]). *)
Definition _ensure_sequence (r : t) : result t :=
  match response r with
  | Sequence _ => Ok r
  | Iterator cs =>
      if direct_passthrough r then Raise RuntimeError
      else if negb (implicit_sequence_conversion r) then Raise RuntimeError
      else Ok (set_response r (Sequence cs))
  end.

(** [get_data()]: the whole body as one byte string, together with the
    response object as the call leaves it. *)
Definition get_data (r : t) : result (bytes * t) :=
  r' ← _ensure_sequence r;
  mret (concat (chunks_of (response r')), r').

End FlaskResponseMethods.

(** Modelled from the spec: connexion.lifecycle.ConnexionResponse, the
    canonical response of section 3 (body, status_code, mimetype,
    content_type, headers, is_streamed).  The class is a plain holder of
    the values it is constructed with. *)
Module ConnexionResponse.

Record t : Type := mk {
  status_code : pyval;
  mimetype : pyval;
  content_type : pyval;
  headers : pyval;
  body : pyval;
  is_streamed : bool
}.

End ConnexionResponse.

(** The canonical response that carries a serialized body: it has no
    content type of its own and is not streamed. *)
Definition canonical (body mimetype status_code headers : pyval) : ConnexionResponse.t :=
  {| ConnexionResponse.status_code := status_code;
     ConnexionResponse.mimetype := mimetype;
     ConnexionResponse.content_type := PNone;
     ConnexionResponse.headers := headers;
     ConnexionResponse.body := body;
     ConnexionResponse.is_streamed := false |}.

(** Modelled from the spec: connexion.lifecycle.ConnexionRequest, the
    canonical request of section 3, with the members [get_body] reads: the
    declared content type, the bare mimetype, the raw body bytes and the
    parsed form-field mapping. *)
Module ConnexionRequest.

Record t : Type := mk {
  content_type : option string;
  mimetype : string;
  data : bytes;
  form : list (string * string)
}.

(** [get_data()]: the buffered raw body. *)
Definition get_data (r : t) : bytes := data r.

End ConnexionRequest.

(** connexion.jsonifier.Jsonifier: the JSON codec handed to the API class
    ([cls.jsonifier]).  [loads] and [dumps] raise on input they cannot
    decode or encode. *)
Record Jsonifier : Type := {
  dumps : pyval -> result string;
  loads : bytes -> result pyval
}.

(** Modelled from the spec: [request.get_json(silent)], section 4.1:
    attempt to parse the raw body as JSON; with [silent] a parse failure
    gives None instead of an exception. *)
Definition get_json (jsonifier : Jsonifier) (silent : bool)
    (request : ConnexionRequest.t) : result pyval :=
  match loads jsonifier (ConnexionRequest.get_data request) with
  | Ok v => Ok v
  | Raise e => if silent then Ok PNone else Raise BadRequest
  end.

(** Modelled from the spec: connexion.apis.flask_utils.is_flask_response,
    the predicate [is_framework_response(x)] of section 9: whether a value
    is a response object of the framework. *)
Definition is_flask_response (obj : pyval) : bool :=
  match obj with PResponse _ => true | _ => false end.

#[global] Instance pyval_None_dec (v : pyval) : Decision (v = PNone).
Proof. destruct v; first [left; reflexivity | right; discriminate]. Defined.

(** What [_build_response] returns is the value of one call into Flask,
    recorded here with the arguments it is made with:
    [flask.current_app.make_response] applied to the tuple
    (data, status_code, headers), or [flask.current_app.response_class]
    applied to the keyword arguments [kwargs]. *)
Inductive framework_call : Type :=
| make_response (rv : pyval * pyval * pyval)
| response_class (kwargs : gmap string pyval).

(** ** AbstractAPI: the inherited methods *)

(** The base class connexion.apis.abstract.AbstractAPI.  Its class methods
    dispatch on [cls], so the methods the subclass supplies are parameters
    here. *)
Module AbstractAPI.
Section Inherited.

Variable jsonifier : Jsonifier.
Variable _framework_to_connexion_response :
  FlaskResponse.t -> pyval -> result ConnexionResponse.t.

(** Modelled from the spec: the body serialization of section 4.2(a),
    step 3: text and bytes pass through; any other value is encoded to
    JSON and the mimetype becomes application/json unless the caller
    supplied one. *)
Definition _serialize_data (data mimetype : pyval) : result (pyval * pyval) :=
  match data with
  | PStr _ | PBytes _ => Ok (data, mimetype)
  | _ =>
      body ← dumps jsonifier data;
      mret (PStr body,
            if is_None mimetype then PStr "application/json" else mimetype)
  end.

(** Modelled from the spec: AbstractAPI._prepare_body_and_status_code, the
    body preparation shared by both directions of section 4.2: serialize
    the body (step 3) and default the status code to 200 when it is unset
    (step 4). *)
Definition _prepare_body_and_status_code (data mimetype status_code : pyval)
    : result (pyval * pyval * pyval) :=
  '(body, mimetype) ← _serialize_data data mimetype;
  mret (body, if is_None status_code then PInt 200 else status_code, mimetype).

(** Modelled from the spec: the single disambiguation routine of sections
    4.2(a) step 2 and 7: a handler result is read by tuple arity into
    (body, status, headers); a 2-tuple is told apart by the type of its
    second element, an integer being the status and a mapping of any kind
    the headers; any other tuple shape is a programming error. *)
Definition _unpack_handler_response (response : pyval)
    : result (pyval * pyval * pyval) :=
  match response with
  | PTuple [body] => Ok (body, PNone, PDict [])
  | PTuple [body; second] =>
      if is_integer second then Ok (body, second, PDict [])
      else if is_mapping second then Ok (body, PNone, second)
      else Raise TypeError
  | PTuple [body; status_code; headers] => Ok (body, status_code, headers)
  | PTuple _ => Raise TypeError
  | body => Ok (body, PNone, PDict [])
  end.

(** Modelled from the spec: AbstractAPI._get_response, the algorithm
    "handler result to canonical response" of section 4.2(a), steps 1 to 4,
    with the status precedence of its edge case. *)
Definition _get_response (response mimetype : pyval)
    : result ConnexionResponse.t :=
  '(body, status_code, headers) ← _unpack_handler_response response;
  match body with
  | PResponse framework_response =>
      converted ← _framework_to_connexion_response framework_response mimetype;
      mret {| ConnexionResponse.status_code :=
                if is_None status_code
                then ConnexionResponse.status_code converted
                else status_code;
              ConnexionResponse.mimetype := ConnexionResponse.mimetype converted;
              ConnexionResponse.content_type :=
                ConnexionResponse.content_type converted;
              ConnexionResponse.headers := ConnexionResponse.headers converted;
              ConnexionResponse.body := ConnexionResponse.body converted;
              ConnexionResponse.is_streamed :=
                ConnexionResponse.is_streamed converted |}
  | _ =>
      '(body, status_code, mimetype) ←
         _prepare_body_and_status_code body mimetype status_code;
      mret {| ConnexionResponse.status_code := status_code;
              ConnexionResponse.mimetype := mimetype;
              ConnexionResponse.content_type := PNone;
              ConnexionResponse.headers := headers;
              ConnexionResponse.body := body;
              ConnexionResponse.is_streamed := false |}
  end.

End Inherited.
End AbstractAPI.

(** ** FlaskApi *)

Module FlaskApi.

(** The dict comprehension [{k: v for k, v in kwargs.items() if v is not
    None}]. *)
Definition without_None (kwargs : gmap string pyval) : gmap string pyval :=
  filter (fun kv : string * pyval => kv.2 ≠ PNone) kwargs.

(** [_is_framework_response(cls, response)] *)
Definition _is_framework_response (response : pyval) : bool :=
  is_flask_response response.

(** [_framework_to_connexion_response(cls, response, mimetype)].  The
    keyword arguments of the constructor call are evaluated from left to
    right, so [response.is_streamed] is read after [response.get_data()]
    has run. *)
Definition _framework_to_connexion_response
    (response : FlaskResponse.t) (mimetype : pyval) : result ConnexionResponse.t :=
  let status_code := PInt (FlaskResponse.status_code response) in
  let mimetype' := of_option PStr (FlaskResponse.mimetype response) in
  let content_type := of_option PStr (FlaskResponse.content_type response) in
  let headers := PHeaders (FlaskResponse.headers response) in
  '(body, response) ←
     (if negb (FlaskResponse.direct_passthrough response)
      then '(data, response) ← FlaskResponseMethods.get_data response;
           mret (PBytes data, response)
      else mret (PNone, response));
  mret {| ConnexionResponse.status_code := status_code;
          ConnexionResponse.mimetype := mimetype';
          ConnexionResponse.content_type := content_type;
          ConnexionResponse.headers := headers;
          ConnexionResponse.body := body;
          ConnexionResponse.is_streamed := FlaskResponse.is_streamed response |}.

Section Collaborators.

(** [connexion.utils.is_json_mimetype], [connexion.http_facts.FORM_CONTENT_TYPES],
    the class attribute [cls.jsonifier] and the inherited class method
    [cls._prepare_body_and_status_code(data, mimetype, status_code)]. *)
Variable is_json_mimetype : option string -> bool.
Variable FORM_CONTENT_TYPES : list string.
Variable jsonifier : Jsonifier.
Variable _prepare_body_and_status_code :
  pyval -> pyval -> pyval -> result (pyval * pyval * pyval).

(** [get_response(cls, response, mimetype=None)] *)
Definition get_response (response mimetype : pyval) : result ConnexionResponse.t :=
  AbstractAPI._get_response jsonifier _framework_to_connexion_response
    response mimetype.

(** The dict literal of [_build_response], in source order. *)
Definition build_kwargs
    (mimetype serialized_mimetype content_type headers data status_code : pyval)
    : list (string * pyval) :=
  [("mimetype", py_or mimetype serialized_mimetype);
   ("content_type", content_type);
   ("headers", headers);
   ("response", data);
   ("status", status_code)].

(** [_build_response(cls, mimetype, content_type=None, headers=None,
    status_code=None, data=None)] *)
Definition _build_response
    (mimetype content_type headers status_code data : pyval)
    : result framework_call :=
  if _is_framework_response data then
    mret (make_response (data, status_code, headers))
  else
    '(data, status_code, serialized_mimetype) ←
       _prepare_body_and_status_code data mimetype status_code;
    let kwargs : gmap string pyval :=
      list_to_map (build_kwargs mimetype serialized_mimetype content_type
                     headers data status_code) in
    let kwargs := without_None kwargs in
    mret (response_class kwargs).

(** [_connexion_to_framework_response(cls, response, mimetype)] *)
Definition _connexion_to_framework_response
    (response : ConnexionResponse.t) (mimetype : pyval) : result framework_call :=
  let flask_response :=
    _build_response
      (py_or (ConnexionResponse.mimetype response) mimetype)
      (ConnexionResponse.content_type response)
      (ConnexionResponse.headers response)
      (ConnexionResponse.status_code response)
      (ConnexionResponse.body response) in
  flask_response.

(** [get_body(request)] *)
Definition get_body (request : ConnexionRequest.t) : result pyval :=
  if is_json_mimetype (ConnexionRequest.content_type request) then
    get_json jsonifier true request
  else if bool_decide (ConnexionRequest.mimetype request ∈ FORM_CONTENT_TYPES) then
    mret (PMultiDict (ConnexionRequest.form request))
  else
    mret (py_or (PBytes (ConnexionRequest.get_data request)) PNone).

End Collaborators.
End FlaskApi.

(** ** FlaskOperation *)

(** Modelled from the spec: connexion.operations.AbstractOperation, the
    members [from_operation] reads.  Handler functions, URI parser classes
    and API objects are opaque references. *)
Module AbstractOperation.
Section Refs.
Variables Callable URIParser Api : Type.

Record t : Type := mk {
  function : Callable;
  uri_parser_class : URIParser;
  api : Api;
  get_mimetype : string;
  operation_id : string
}.

End Refs.
End AbstractOperation.

Module FlaskOperation.
Section Adapter.

Variables Callable URIParser Api : Type.
(** The positional and keyword arguments of a call, and everything outside
    the adapter that handling a request may read or write. *)
Variables Args World : Type.

Abbreviation Operation := (AbstractOperation.t Callable URIParser Api).

(** The instance attributes that [__init__] assigns. *)
Record t : Type := mk {
  _operation : Operation;
  _fn : Callable;
  uri_parser_class : URIParser;
  api : Api;
  mimetype : string;
  operation_id : string;
  pythonic_params : bool
}.

(** A view function: what calling it returns or raises, and the effect it
    has outside the adapter. *)
Definition view : Type := Args -> World -> result FlaskResponse.t * World.

(** [connexion.decorators.SyncDecorator(operation, uri_parser_cls=...,
    framework=..., parameter=..., response=..., pythonic_params=...)]
    applied to the handler function. *)
Variable SyncDecorator :
  Operation -> URIParser -> Api -> bool -> bool -> bool -> Callable -> view.

(** A method of the adapter: it runs on [self] and the world and leaves
    both behind, together with its value. *)
Definition method (A : Type) : Type := t -> World -> A * t * World.

Definition getattr {A : Type} (attr : t -> A) : method A :=
  fun self w => (attr self, self, w).

Definition setattr (update : t -> t) : method unit :=
  fun self w => (tt, update self, w).

Definition call_out {A : Type} (f : World -> A * World) : method A :=
  fun self w => let '(a, w') := f w in (a, self, w').

Definition method_bind {A B : Type} (m : method A) (k : A -> method B) : method B :=
  fun self w => let '(a, self', w') := m self w in k a self' w'.

Definition method_ret {A : Type} (a : A) : method A := fun self w => (a, self, w).

(** [__init__(self, operation, fn, uri_parser_class, api, mimetype,
    operation_id, pythonic_params)] *)
Definition __init__ (operation : Operation) (fn : Callable)
    (uri_parser_class : URIParser) (api : Api) (mimetype operation_id : string)
    (pythonic_params : bool) : t :=
  {| _operation := operation; _fn := fn; uri_parser_class := uri_parser_class;
     api := api; mimetype := mimetype; operation_id := operation_id;
     pythonic_params := pythonic_params |}.

(** [from_operation(cls, operation, pythonic_params)] *)
Definition from_operation (operation : Operation) (pythonic_params : bool) : t :=
  __init__ operation
    (AbstractOperation.function _ _ _ operation)
    (AbstractOperation.uri_parser_class _ _ _ operation)
    (AbstractOperation.api _ _ _ operation)
    (AbstractOperation.get_mimetype _ _ _ operation)
    (AbstractOperation.operation_id _ _ _ operation)
    pythonic_params.

(** The property [fn] *)
Definition fn : method view :=
  method_bind (getattr _operation) (fun operation =>
  method_bind (getattr uri_parser_class) (fun uri_parser_cls =>
  method_bind (getattr api) (fun framework =>
  method_bind (getattr pythonic_params) (fun pythonic =>
  let decorator := SyncDecorator operation uri_parser_cls framework true true pythonic in
  method_bind (getattr _fn) (fun handler =>
  method_ret (decorator handler)))))).

(** [__call__(self, *args, **kwargs)] *)
Definition __call__ (args : Args) : method (result FlaskResponse.t) :=
  method_bind fn (fun decorated => call_out (decorated args)).

End Adapter.
End FlaskOperation.

(** ** Concrete collaborators and values for the examples *)

Module Example.

Definition b (s : string) : bytes := list_byte_of_string s.

Definition quote : string := String (Ascii.ascii_of_nat 34) EmptyString.

(** A compact JSON encoder for None, booleans, integers, strings without
    escapes, lists, tuples and dicts; any other value is not serializable. *)
Fixpoint encode (v : pyval) : result string :=
  match v with
  | PNone => Ok "null"
  | PBool flag => Ok (if flag then "true" else "false")
  | PInt z => Ok (pretty z)
  | PStr s => Ok (quote ++ s ++ quote)
  | PList l | PTuple l =>
      match
        (fix each (l : list pyval) : result (list string) :=
           match l with
           | [] => Ok []
           | x :: l' =>
               match encode x, each l' with
               | Ok s, Ok r => Ok (s :: r)
               | Raise e, _ | _, Raise e => Raise e
               end
           end) l
      with
      | Ok items => Ok ("[" ++ String.concat ", " items ++ "]")
      | Raise e => Raise e
      end
  | PDict d =>
      match
        (fix each (d : list (string * pyval)) : result (list string) :=
           match d with
           | [] => Ok []
           | (k, x) :: d' =>
               match encode x, each d' with
               | Ok s, Ok r => Ok ((quote ++ k ++ quote ++ ": " ++ s) :: r)
               | Raise e, _ | _, Raise e => Raise e
               end
           end) d
      with
      | Ok items => Ok ("{" ++ String.concat ", " items ++ "}")
      | Raise e => Raise e
      end
  | PHeaders _ | PMultiDict _ | PBytes _ | PResponse _ => Raise TypeError
  end.

(** A decoder for the scalar documents null, true and false; every other
    input is refused with ValueError. *)
Definition decode (raw : bytes) : result pyval :=
  let text := string_of_list_byte raw in
  if String.eqb text "null" then Ok PNone
  else if String.eqb text "true" then Ok (PBool true)
  else if String.eqb text "false" then Ok (PBool false)
  else Raise ValueError.

Definition jsonifier : Jsonifier := {| dumps := encode; loads := decode |}.

(** A content type indicates JSON when it is application/json, with or
    without a charset parameter. *)
Definition is_json_mimetype (content_type : option string) : bool :=
  match content_type with
  | Some ct =>
      String.eqb ct "application/json" || String.prefix "application/json;" ct
  | None => false
  end.

Definition FORM_CONTENT_TYPES : list string :=
  ["application/x-www-form-urlencoded"; "multipart/form-data"].

Definition _prepare_body_and_status_code :=
  AbstractAPI._prepare_body_and_status_code jsonifier.

(** A request with a JSON content type and the body [not json]. *)
Definition malformed_json_request : ConnexionRequest.t :=
  {| ConnexionRequest.content_type := Some "application/json";
     ConnexionRequest.mimetype := "application/json";
     ConnexionRequest.data := b "not json";
     ConnexionRequest.form := [] |}.

(** A form post with the body [a=1&b=2]. *)
Definition form_request : ConnexionRequest.t :=
  {| ConnexionRequest.content_type := Some "application/x-www-form-urlencoded";
     ConnexionRequest.mimetype := "application/x-www-form-urlencoded";
     ConnexionRequest.data := b "a=1&b=2";
     ConnexionRequest.form := [("a", "1"); ("b", "2")] |}.

Definition text_request (payload : string) : ConnexionRequest.t :=
  {| ConnexionRequest.content_type := Some "text/plain";
     ConnexionRequest.mimetype := "text/plain";
     ConnexionRequest.data := b payload;
     ConnexionRequest.form := [] |}.

(** A response built from a list of chunks, one built from a generator,
    and a file sent with direct passthrough. *)
Definition buffered_response : FlaskResponse.t :=
  {| FlaskResponse.status_code := 200;
     FlaskResponse.mimetype := Some "text/plain";
     FlaskResponse.content_type := Some "text/plain; charset=utf-8";
     FlaskResponse.headers := [("Content-Type", "text/plain; charset=utf-8")];
     FlaskResponse.response := FlaskResponse.Sequence [b "hello"];
     FlaskResponse.direct_passthrough := false;
     FlaskResponse.implicit_sequence_conversion := true |}.

Definition generator_response : FlaskResponse.t :=
  FlaskResponse.set_response buffered_response
    (FlaskResponse.Iterator [b "hel"; b "lo"]).

Definition file_response : FlaskResponse.t :=
  {| FlaskResponse.status_code := 200;
     FlaskResponse.mimetype := Some "application/octet-stream";
     FlaskResponse.content_type := Some "application/octet-stream";
     FlaskResponse.headers := [("Content-Type", "application/octet-stream")];
     FlaskResponse.response := FlaskResponse.Iterator [b "chunk"];
     FlaskResponse.direct_passthrough := true;
     FlaskResponse.implicit_sequence_conversion := true |}.

(** A generator-backed response with implicit sequence conversion
    switched off. *)
Definition unreadable_response : FlaskResponse.t :=
  {| FlaskResponse.status_code := 200;
     FlaskResponse.mimetype := Some "text/plain";
     FlaskResponse.content_type := Some "text/plain";
     FlaskResponse.headers := [];
     FlaskResponse.response := FlaskResponse.Iterator [b "chunk"];
     FlaskResponse.direct_passthrough := false;
     FlaskResponse.implicit_sequence_conversion := false |}.

End Example.

(** ** The API object: its blueprint and the routes added to it *)

(** flask.Blueprint as flask_api.py uses it: the arguments it is
    constructed with and the [add_url_rule] calls made on it, in order. *)
Module Blueprint.
Section Rules.

Variable Endpoint : Type.

Record url_rule : Type := mk_rule {
  rule : string;
  endpoint : string;
  view_func : Endpoint;
  methods : list string
}.

Record t : Type := mk {
  name : string;
  import_name : string;
  url_prefix : string;
  template_folder : string;
  url_rules : list url_rule
}.

(** [add_url_rule(rule, endpoint, view_func, methods=...)] *)
Definition add_url_rule (blueprint : t) (rule endpoint : string)
    (view_func : Endpoint) (methods : list string) : t :=
  {| name := name blueprint; import_name := import_name blueprint;
     url_prefix := url_prefix blueprint;
     template_folder := template_folder blueprint;
     url_rules := url_rules blueprint
                  ++ [mk_rule rule endpoint view_func methods] |}.

End Rules.
End Blueprint.

(** A FlaskApi instance: the attributes that [_set_base_path],
    [_set_blueprint] and [_add_operation_internal] read or assign. *)
Module FlaskApiObject.
Section Instance.

Variables Callable URIParser Api PathTypes : Type.

Abbreviation Operation := (AbstractOperation.t Callable URIParser Api).
Abbreviation Adapter := (FlaskOperation.t Callable URIParser Api).

Record t : Type := mk {
  base_path : string;
  pythonic_params : bool;
  openapi_console_ui_from_dir : pyval;
  blueprint : Blueprint.t Adapter
}.

(** [flask_utils.flaskify_endpoint(identifier, randomize=None)],
    [flask_utils.flaskify_path(swagger_path, types)], [str], the
    superclass method [AbstractAPI._set_base_path] and the members
    [get_path_parameter_types()] and [randomize_endpoint] of an
    operation. *)
Variable flaskify_endpoint : string -> pyval -> string.
Variable flaskify_path : string -> PathTypes -> string.
Variable str : pyval -> string.
Variable super_set_base_path : pyval -> t -> t.
Variable get_path_parameter_types : Operation -> PathTypes.
Variable randomize_endpoint : Operation -> pyval.

Definition set_blueprint (self : t) (b : Blueprint.t Adapter) : t :=
  {| base_path := base_path self; pythonic_params := pythonic_params self;
     openapi_console_ui_from_dir := openapi_console_ui_from_dir self;
     blueprint := b |}.

(** [_set_blueprint(self)] *)
Definition _set_blueprint (self : t) : t :=
  let endpoint := flaskify_endpoint (base_path self) PNone in
  set_blueprint self
    (Blueprint.mk Adapter endpoint "connexion.apis.flask_api" (base_path self)
       (str (openapi_console_ui_from_dir self)) []).

(** [_set_base_path(self, base_path)] *)
Definition _set_base_path (base_path : pyval) (self : t) : t :=
  let self := super_set_base_path base_path self in
  _set_blueprint self.

(** [_add_operation_internal(self, method, path, operation)] *)
Definition _add_operation_internal (method path : string) (operation : Operation)
    (self : t) : t :=
  let operation_id := AbstractOperation.operation_id _ _ _ operation in
  let flask_path := flaskify_path path (get_path_parameter_types operation) in
  let endpoint_name := flaskify_endpoint operation_id (randomize_endpoint operation) in
  let endpoint :=
    FlaskOperation.from_operation Callable URIParser Api operation
      (pythonic_params self) in
  set_blueprint self
    (Blueprint.add_url_rule Adapter (blueprint self) flask_path endpoint_name
       endpoint [method]).

(** One route to register: method, path and operation. *)
Definition route : Type := string * string * Operation.

(** The url rule that registering one route adds. *)
Definition rule_of (pythonic_params : bool) (r : route) : Blueprint.url_rule Adapter :=
  let '(method, path, operation) := r in
  Blueprint.mk_rule Adapter
    (flaskify_path path (get_path_parameter_types operation))
    (flaskify_endpoint (AbstractOperation.operation_id _ _ _ operation)
       (randomize_endpoint operation))
    (FlaskOperation.from_operation Callable URIParser Api operation pythonic_params)
    [method].

(** Registering routes one after the other. *)
Definition add_operations (routes : list route) (self : t) : t :=
  fold_left (fun self '(method, path, operation) =>
               _add_operation_internal method path operation self)
    routes self.

End Instance.
End FlaskApiObject.

(** Invoking an adapter once per request, one request after the other. *)
Module Serving.
Section Requests.

Variables Callable URIParser Api Args World : Type.
Variable SyncDecorator :
  AbstractOperation.t Callable URIParser Api ->
  URIParser -> Api -> bool -> bool -> bool -> Callable ->
  FlaskOperation.view Args World.

Abbreviation Adapter := (FlaskOperation.t Callable URIParser Api).

(** The view function an adapter decorates on every invocation. *)
Definition decorated_view (self : Adapter) : FlaskOperation.view Args World :=
  SyncDecorator (FlaskOperation._operation _ _ _ self)
    (FlaskOperation.uri_parser_class _ _ _ self)
    (FlaskOperation.api _ _ _ self) true true
    (FlaskOperation.pythonic_params _ _ _ self)
    (FlaskOperation._fn _ _ _ self).

Fixpoint invoke_all (requests : list Args) (self : Adapter) (w : World)
    : list (result FlaskResponse.t) * Adapter * World :=
  match requests with
  | [] => ([], self, w)
  | args :: requests' =>
      let '(response, self', w') :=
        FlaskOperation.__call__ Callable URIParser Api Args World SyncDecorator
          args self w in
      let '(responses, self'', w'') := invoke_all requests' self' w' in
      (response :: responses, self'', w'')
  end.

(** The same requests handled by one view function directly. *)
Fixpoint run_view (view : FlaskOperation.view Args World)
    (requests : list Args) (w : World) : list (result FlaskResponse.t) * World :=
  match requests with
  | [] => ([], w)
  | args :: requests' =>
      let '(response, w') := view args w in
      let '(responses, w'') := run_view view requests' w' in
      (response :: responses, w'')
  end.

End Requests.
End Serving.

(** Stand-ins for the opaque references of an operation, with a decorated
    handler that counts the requests it has seen in the world. *)
Module ExampleOperation.

Definition counting_decorator
    (operation : AbstractOperation.t string string string)
    (uri_parser_cls framework : string) (parameter response pythonic : bool)
    (handler : string) : FlaskOperation.view string Z :=
  fun args seen =>
    (Ok (FlaskResponse.set_response Example.buffered_response
           (FlaskResponse.Sequence [Example.b handler; Example.b args])),
     (seen + 1)%Z).

Definition get_pets : AbstractOperation.t string string string :=
  {| AbstractOperation.function := "api.get_pets";
     AbstractOperation.uri_parser_class := "OpenAPIURIParser";
     AbstractOperation.api := "FlaskApi";
     AbstractOperation.get_mimetype := "application/json";
     AbstractOperation.operation_id := "api.get_pets" |}.

End ExampleOperation.

(** * Properties *)

(** ** Framework response to canonical response *)

Section ResponseConversion.

Import FlaskResponse FlaskResponseMethods.

Lemma _ensure_sequence_is_sequence (r r' : FlaskResponse.t) :
  _ensure_sequence r = Ok r' -> is_sequence r' = true.
Proof.
  unfold _ensure_sequence, is_sequence.
  destruct (response r) as [cs|cs] eqn:Hresp.
  - intros [= <-]. now rewrite Hresp.
  - destruct (direct_passthrough r); [discriminate|].
    destruct (implicit_sequence_conversion r); [|discriminate].
    now intros [= <-].
Qed.

(** Once [get_data] has returned, the body is a list: the response object
    no longer reports itself as streamed. *)
Lemma get_data_not_streamed (r r' : FlaskResponse.t) (data : bytes) :
  get_data r = Ok (data, r') -> is_streamed r' = false.
Proof.
  unfold get_data. destruct (_ensure_sequence r) as [r0|e] eqn:Hseq; [|discriminate].
  cbn. intros [= _ <-].
  apply _ensure_sequence_is_sequence in Hseq.
  unfold is_sequence in Hseq. unfold is_streamed.
  now destruct (response r0).
Qed.

(** With direct passthrough the body is never read: the canonical body is
    None and [is_streamed] is the framework response's own. *)
Lemma direct_passthrough_body_None (r : FlaskResponse.t) (mimetype : pyval) :
  direct_passthrough r = true ->
  exists cr, FlaskApi._framework_to_connexion_response r mimetype = Ok cr
    /\ ConnexionResponse.body cr = PNone
    /\ ConnexionResponse.is_streamed cr = is_streamed r.
Proof.
  intros Hdp. unfold FlaskApi._framework_to_connexion_response. rewrite Hdp. cbn.
  eexists. split; [reflexivity|]. split; reflexivity.
Qed.

(** A generator-backed response without direct passthrough is drained: its
    whole body is copied and the canonical response is not streamed. *)
Lemma iterator_without_passthrough_is_drained
    (r : FlaskResponse.t) (mimetype : pyval) (cs : list bytes) :
  response r = Iterator cs ->
  direct_passthrough r = false ->
  implicit_sequence_conversion r = true ->
  exists cr, FlaskApi._framework_to_connexion_response r mimetype = Ok cr
    /\ ConnexionResponse.body cr = PBytes (concat cs)
    /\ ConnexionResponse.is_streamed cr = false.
Proof.
  intros Hresp Hdp Himp.
  unfold FlaskApi._framework_to_connexion_response, get_data, _ensure_sequence.
  rewrite Hdp, Hresp, Himp. cbn.
  eexists. split; [reflexivity|]. split; reflexivity.
Qed.

(** C1: in every canonical response that
    [_framework_to_connexion_response] produces, [is_streamed] being true
    implies that the body is None.  A body is copied only through
    [get_data], after which the framework response is a sequence; a
    response that still streams was never read. *)
Theorem streamed_response_has_no_body
    (response : FlaskResponse.t) (mimetype : pyval) (cr : ConnexionResponse.t) :
  FlaskApi._framework_to_connexion_response response mimetype = Ok cr ->
  ConnexionResponse.is_streamed cr = true ->
  ConnexionResponse.body cr = PNone.
Proof.
  unfold FlaskApi._framework_to_connexion_response.
  destruct (direct_passthrough response) eqn:Hdp; cbn.
  - intros [= <-] _. reflexivity.
  - destruct (get_data response) as [[data r']|e] eqn:Hdata; cbn; [|discriminate].
    intros [= <-]. cbn. intros Hstreamed.
    apply get_data_not_streamed in Hdata. congruence.
Qed.

(** C10: the default mimetype handed to
    [_framework_to_connexion_response] has no influence on its result:
    every field comes from the framework response. *)
Theorem framework_conversion_ignores_default_mimetype
    (r : FlaskResponse.t) (m1 m2 : pyval) :
  FlaskApi._framework_to_connexion_response r m1 =
  FlaskApi._framework_to_connexion_response r m2.
Proof. reflexivity. Qed.

(** Every field of the converted response is read from the framework
    response. *)
Lemma framework_conversion_fields
    (r : FlaskResponse.t) (mimetype : pyval) (cr : ConnexionResponse.t) :
  FlaskApi._framework_to_connexion_response r mimetype = Ok cr ->
  ConnexionResponse.status_code cr = PInt (status_code r)
  /\ ConnexionResponse.mimetype cr = of_option PStr (FlaskResponse.mimetype r)
  /\ ConnexionResponse.content_type cr = of_option PStr (content_type r)
  /\ ConnexionResponse.headers cr = PHeaders (headers r).
Proof.
  unfold FlaskApi._framework_to_connexion_response.
  destruct (direct_passthrough r); cbn.
  - intros [= <-]. cbn. auto.
  - destruct (get_data r) as [[data r']|e]; cbn; [|discriminate].
    intros [= <-]. cbn. auto.
Qed.

End ResponseConversion.

(** ** Body extraction *)

Section BodyExtraction.

Variable is_json_mimetype : option string -> bool.
Variable FORM_CONTENT_TYPES : list string.
Variable jsonifier : Jsonifier.

Local Abbreviation get_body :=
  (FlaskApi.get_body is_json_mimetype FORM_CONTENT_TYPES jsonifier).

(** Silent decoding gives the decoded document, or None when the codec
    refuses the body; it raises in neither case. *)
Lemma get_json_silent (request : ConnexionRequest.t) :
  get_json jsonifier true request =
  Ok (match loads jsonifier (ConnexionRequest.data request) with
      | Ok v => v
      | Raise _ => PNone
      end).
Proof.
  unfold get_json, ConnexionRequest.get_data.
  now destruct (loads jsonifier (ConnexionRequest.data request)).
Qed.

(** C2: for a request whose content type indicates JSON, [get_body] hands
    the raw body to the JSON decoder; it returns the decoded value when
    decoding succeeds and None when the decoder fails, and it raises in no
    case. *)
Theorem get_body_json_is_silent (request : ConnexionRequest.t) :
  is_json_mimetype (ConnexionRequest.content_type request) = true ->
  returns (get_body request) = true
  /\ (forall v, loads jsonifier (ConnexionRequest.data request) = Ok v ->
        get_body request = Ok v)
  /\ (forall e, loads jsonifier (ConnexionRequest.data request) = Raise e ->
        get_body request = Ok PNone).
Proof.
  intros Hjson. unfold FlaskApi.get_body. rewrite Hjson, get_json_silent.
  split; [reflexivity|].
  split; intros ? ->; reflexivity.
Qed.

(** C8: for a request whose content type does not indicate JSON and whose
    mimetype is one of the form-encoded content types, [get_body] returns
    the request's parsed form-field mapping. *)
Theorem get_body_form_returns_form (request : ConnexionRequest.t) :
  is_json_mimetype (ConnexionRequest.content_type request) = false ->
  ConnexionRequest.mimetype request ∈ FORM_CONTENT_TYPES ->
  get_body request = Ok (PMultiDict (ConnexionRequest.form request)).
Proof.
  intros Hjson Hform. unfold FlaskApi.get_body.
  rewrite Hjson, bool_decide_eq_true_2 by exact Hform. reflexivity.
Qed.

(** C7: for a request whose content type is neither JSON nor form-encoded,
    [get_body] returns the raw body bytes when there are any, and None,
    which is not the empty byte string, when the body is empty. *)
Theorem get_body_raw_bytes_or_None (request : ConnexionRequest.t) :
  is_json_mimetype (ConnexionRequest.content_type request) = false ->
  ConnexionRequest.mimetype request ∉ FORM_CONTENT_TYPES ->
  (ConnexionRequest.data request <> [] ->
     get_body request = Ok (PBytes (ConnexionRequest.data request)))
  /\ (ConnexionRequest.data request = [] ->
        get_body request = Ok PNone /\ get_body request <> Ok (PBytes [])).
Proof.
  intros Hjson Hform. unfold FlaskApi.get_body.
  rewrite Hjson, bool_decide_eq_false_2 by exact Hform.
  unfold ConnexionRequest.get_data, py_or. cbn.
  destruct (ConnexionRequest.data request) as [|c cs]; split; try easy.
Qed.

End BodyExtraction.

(** ** Handler result to canonical response *)

Section HandlerResults.

Variable jsonifier : Jsonifier.

Local Abbreviation get_response := (FlaskApi.get_response jsonifier).
Local Abbreviation _serialize_data := (AbstractAPI._serialize_data jsonifier).

Lemma _get_response_unpacked
    (response body status_code headers mimetype body' mimetype' : pyval) :
  AbstractAPI._unpack_handler_response response = Ok (body, status_code, headers) ->
  is_flask_response body = false ->
  _serialize_data body mimetype = Ok (body', mimetype') ->
  get_response response mimetype =
  Ok (canonical body' mimetype'
        (if is_None status_code then PInt 200 else status_code) headers).
Proof.
  intros Hunpack Hbody Hser.
  unfold FlaskApi.get_response, AbstractAPI._get_response.
  rewrite Hunpack. cbn.
  unfold AbstractAPI._prepare_body_and_status_code.
  destruct body; try discriminate Hbody; rewrite Hser; reflexivity.
Qed.

(** C3: a bare body, alone or in a 1-tuple, gives status 200 and empty
    headers; in a 2-tuple a second element that is an integer is the status
    and one that is a mapping, of whatever kind, is the headers; a 3-tuple
    is read as (body, status, headers) by position. *)
Theorem get_response_handler_shapes (body mimetype body' mimetype' : pyval) :
  is_flask_response body = false ->
  _serialize_data body mimetype = Ok (body', mimetype') ->
  ((forall elements, body <> PTuple elements) ->
     get_response body mimetype = Ok (canonical body' mimetype' (PInt 200) (PDict [])))
  /\ get_response (PTuple [body]) mimetype =
       Ok (canonical body' mimetype' (PInt 200) (PDict []))
  /\ (forall status_code,
        is_integer status_code = true ->
        get_response (PTuple [body; status_code]) mimetype =
          Ok (canonical body' mimetype' status_code (PDict [])))
  /\ (forall headers,
        is_mapping headers = true ->
        get_response (PTuple [body; headers]) mimetype =
          Ok (canonical body' mimetype' (PInt 200) headers))
  /\ (forall status_code headers,
        get_response (PTuple [body; status_code; headers]) mimetype =
          Ok (canonical body' mimetype'
                (if is_None status_code then PInt 200 else status_code) headers)).
Proof.
  intros Hbody Hser.
  repeat split.
  - intros Hbare.
    apply (_get_response_unpacked body body PNone (PDict [])); auto.
    destruct body; try reflexivity. now destruct (Hbare l).
  - now apply (_get_response_unpacked _ body PNone (PDict [])).
  - intros status_code Hint.
    replace (canonical body' mimetype' status_code (PDict []))
      with (canonical body' mimetype'
              (if is_None status_code then PInt 200 else status_code) (PDict []))
      by (destruct status_code; try discriminate Hint; reflexivity).
    apply (_get_response_unpacked _ body status_code (PDict [])); auto.
    cbn. now rewrite Hint.
  - intros headers Hmap.
    apply (_get_response_unpacked _ body PNone headers); auto.
    cbn. destruct headers; try discriminate Hmap; reflexivity.
  - intros status_code headers.
    apply (_get_response_unpacked _ body status_code headers); auto.
Qed.

(** A tuple of no element, of more than three, or a 2-tuple whose second
    element is neither an integer nor a mapping, is refused. *)
Lemma get_response_ambiguous_tuple (mimetype : pyval) :
  get_response (PTuple []) mimetype = Raise TypeError
  /\ (forall a b c d rest,
        get_response (PTuple (a :: b :: c :: d :: rest)) mimetype = Raise TypeError)
  /\ (forall body second,
        is_integer second = false -> is_mapping second = false ->
        get_response (PTuple [body; second]) mimetype = Raise TypeError).
Proof.
  split; [reflexivity|].
  split; [reflexivity|].
  intros body second Hnot_int Hnot_map.
  unfold FlaskApi.get_response, AbstractAPI._get_response. cbn.
  now rewrite Hnot_int, Hnot_map.
Qed.

End HandlerResults.

(** ** Canonical response to framework response *)

Section ResponseBuilding.

Variable _prepare_body_and_status_code :
  pyval -> pyval -> pyval -> result (pyval * pyval * pyval).

Local Abbreviation _build_response :=
  (FlaskApi._build_response _prepare_body_and_status_code).
Local Abbreviation _connexion_to_framework_response :=
  (FlaskApi._connexion_to_framework_response _prepare_body_and_status_code).

Lemma without_None_lookup (items : list (string * pyval)) (k : string) (v : pyval) :
  NoDup items.*1 -> (k, v) ∈ items ->
  FlaskApi.without_None (list_to_map items) !! k =
  if is_None v then None else Some v.
Proof.
  intros Hkeys Hin. unfold FlaskApi.without_None.
  apply (elem_of_list_to_map_1 (M := gmap string)) in Hin; [|exact Hkeys].
  destruct (is_None v) eqn:Hv.
  - apply map_lookup_filter_None_2. right. intros x Hx. cbn.
    rewrite Hin in Hx. injection Hx as <-. destruct v; try discriminate Hv. tauto.
  - apply map_lookup_filter_Some_2; [exact Hin|]. cbn. now destruct v.
Qed.

Lemma without_None_absent (items : list (string * pyval)) (k : string) :
  k ∉ items.*1 -> FlaskApi.without_None (list_to_map items) !! k = None.
Proof.
  intros Hk. unfold FlaskApi.without_None.
  apply map_lookup_filter_None_2. left. now apply not_elem_of_list_to_map_1.
Qed.

Lemma build_kwargs_keys (m s c h d st : pyval) :
  (FlaskApi.build_kwargs m s c h d st).*1 =
  ["mimetype"; "content_type"; "headers"; "response"; "status"].
Proof. reflexivity. Qed.

Lemma constructor_keys_NoDup :
  NoDup ["mimetype"; "content_type"; "headers"; "response"; "status"].
Proof.
  repeat (apply NoDup_cons_2; [rewrite ?elem_of_cons, elem_of_nil; intuition discriminate|]).
  apply NoDup_nil_2.
Qed.

(** The call that the serializing path of [_build_response] makes. *)
Lemma _build_response_serialized
    (mimetype content_type headers status_code data : pyval)
    (data' status_code' serialized_mimetype : pyval) :
  FlaskApi._is_framework_response data = false ->
  _prepare_body_and_status_code data mimetype status_code =
    Ok (data', status_code', serialized_mimetype) ->
  _build_response mimetype content_type headers status_code data =
  Ok (response_class
        (FlaskApi.without_None
           (list_to_map (FlaskApi.build_kwargs mimetype serialized_mimetype
                           content_type headers data' status_code')))).
Proof.
  intros Hdata Hprep. unfold FlaskApi._build_response.
  rewrite Hdata, Hprep. reflexivity.
Qed.

(** C4: when the data handed to [_build_response] is a framework response,
    the call made is [make_response] on the tuple of that same object, the
    status code and the headers; the body preparation is not consulted,
    whatever it would have done. *)
Theorem build_response_passes_framework_response_through
    (mimetype content_type headers status_code data : pyval) :
  FlaskApi._is_framework_response data = true ->
  _build_response mimetype content_type headers status_code data =
  Ok (make_response (data, status_code, headers)).
Proof.
  intros Hdata. unfold FlaskApi._build_response. now rewrite Hdata.
Qed.

(** C5: on the serializing path of [_build_response], each of the five
    constructor arguments (mimetype, content_type, headers, response,
    status) is left out of the call when its value is None and is passed
    with its value otherwise; no other argument is passed. *)
Theorem build_response_omits_None_arguments
    (mimetype content_type headers status_code data : pyval)
    (data' status_code' serialized_mimetype : pyval) :
  FlaskApi._is_framework_response data = false ->
  _prepare_body_and_status_code data mimetype status_code =
    Ok (data', status_code', serialized_mimetype) ->
  exists kwargs : gmap string pyval,
    _build_response mimetype content_type headers status_code data =
      Ok (response_class kwargs)
    /\ (forall k v,
          (k, v) ∈ FlaskApi.build_kwargs mimetype serialized_mimetype
                     content_type headers data' status_code' ->
          kwargs !! k = if is_None v then None else Some v)
    /\ (forall k,
          k ∉ ["mimetype"; "content_type"; "headers"; "response"; "status"] ->
          kwargs !! k = None).
Proof.
  intros Hdata Hprep. eexists. split.
  - apply _build_response_serialized; eassumption.
  - split.
    + intros k v Hin. apply without_None_lookup; [|exact Hin].
      rewrite build_kwargs_keys. exact constructor_keys_NoDup.
    + intros k Hk. apply without_None_absent. now rewrite build_kwargs_keys.
Qed.

(** What Python's [or] takes for an absent mimetype: None and the empty
    string; any other string stands. *)
Lemma py_or_mimetype (supplied : string) (other : pyval) :
  py_or PNone other = other
  /\ py_or (PStr EmptyString) other = other
  /\ (supplied <> EmptyString -> py_or (PStr supplied) other = PStr supplied).
Proof.
  split; [reflexivity|]. split; [reflexivity|].
  intros Hsupplied. unfold py_or. cbn.
  destruct (String.eqb_spec supplied EmptyString); [contradiction|reflexivity].
Qed.

(** C6: the mimetype that reaches the response constructor is the caller's
    whenever the caller supplied one (a non-empty string, which is what
    Python's [or] takes for present); the mimetype that serialization
    derived is used only when the caller's is None or empty.  Likewise
    [_connexion_to_framework_response] builds with the canonical response's
    own mimetype when it has one, and with the default mimetype only
    otherwise. *)
Theorem mimetype_precedence
    (mimetype content_type headers status_code data : pyval)
    (data' status_code' serialized_mimetype : pyval)
    (response : ConnexionResponse.t) (default_mimetype : pyval) :
  FlaskApi._is_framework_response data = false ->
  _prepare_body_and_status_code data mimetype status_code =
    Ok (data', status_code', serialized_mimetype) ->
  (exists kwargs : gmap string pyval,
     _build_response mimetype content_type headers status_code data =
       Ok (response_class kwargs)
     /\ (py_truthy mimetype = true -> kwargs !! "mimetype" = Some mimetype)
     /\ (py_truthy mimetype = false ->
           kwargs !! "mimetype" =
             if is_None serialized_mimetype then None else Some serialized_mimetype))
  /\ (py_truthy (ConnexionResponse.mimetype response) = true ->
        _connexion_to_framework_response response default_mimetype =
        _build_response (ConnexionResponse.mimetype response)
          (ConnexionResponse.content_type response)
          (ConnexionResponse.headers response)
          (ConnexionResponse.status_code response)
          (ConnexionResponse.body response))
  /\ (py_truthy (ConnexionResponse.mimetype response) = false ->
        _connexion_to_framework_response response default_mimetype =
        _build_response default_mimetype
          (ConnexionResponse.content_type response)
          (ConnexionResponse.headers response)
          (ConnexionResponse.status_code response)
          (ConnexionResponse.body response)).
Proof.
  intros Hdata Hprep. split; [|split].
  - eexists. split; [apply _build_response_serialized; eassumption|].
    assert (Hlookup : FlaskApi.without_None
              (list_to_map
                 (FlaskApi.build_kwargs mimetype serialized_mimetype content_type
                    headers data' status_code')) !! "mimetype" =
            if is_None (py_or mimetype serialized_mimetype) then None
            else Some (py_or mimetype serialized_mimetype)).
    { apply without_None_lookup.
      - rewrite build_kwargs_keys. exact constructor_keys_NoDup.
      - unfold FlaskApi.build_kwargs. apply list_elem_of_here. }
    rewrite Hlookup. unfold py_or.
    split; intros Hm; rewrite Hm; [|reflexivity].
    destruct mimetype; try reflexivity; discriminate.
  - intros Hown. unfold FlaskApi._connexion_to_framework_response, py_or.
    rewrite Hown. reflexivity.
  - intros Hown. unfold FlaskApi._connexion_to_framework_response, py_or.
    rewrite Hown. reflexivity.
Qed.

End ResponseBuilding.

(** ** The operation adapter *)

Section AdapterFrame.

Variables Callable URIParser Api Args World : Type.
Variable SyncDecorator :
  AbstractOperation.t Callable URIParser Api ->
  URIParser -> Api -> bool -> bool -> bool -> Callable ->
  FlaskOperation.view Args World.

Local Abbreviation adapter := (FlaskOperation.t Callable URIParser Api).
Local Abbreviation __call__ :=
  (FlaskOperation.__call__ Callable URIParser Api Args World SyncDecorator).
Local Abbreviation fn :=
  (FlaskOperation.fn Callable URIParser Api Args World SyncDecorator).

(** Reading an attribute, and calling out of the adapter, leave [self] as
    it is; sequencing two methods that do so does as well. *)
Lemma getattr_frame {A : Type} (attr : adapter -> A) (self : adapter) (w : World) :
  (FlaskOperation.getattr Callable URIParser Api World attr self w).1.2 = self.
Proof. reflexivity. Qed.

Lemma call_out_frame {A : Type} (f : World -> A * World) (self : adapter) (w : World) :
  (FlaskOperation.call_out Callable URIParser Api World f self w).1.2 = self.
Proof. unfold FlaskOperation.call_out. now destruct (f w). Qed.

(** The property [fn] builds the decorated view function from the
    adapter's attributes and leaves the adapter and the world alone. *)
Lemma fn_value (self : adapter) (w : World) :
  fn self w =
  (SyncDecorator (FlaskOperation._operation _ _ _ self)
     (FlaskOperation.uri_parser_class _ _ _ self)
     (FlaskOperation.api _ _ _ self) true true
     (FlaskOperation.pythonic_params _ _ _ self)
     (FlaskOperation._fn _ _ _ self),
   self, w).
Proof. reflexivity. Qed.

(** An invocation is one call of the decorated handler, on the arguments of
    the invocation. *)
Lemma __call___value (args : Args) (self : adapter) (w : World) :
  __call__ args self w =
  (let '(response, w') := (fn self w).1.1 args w in (response, self, w')).
Proof. reflexivity. Qed.

(** C9: an invocation of the adapter leaves the adapter as it was: the
    underlying operation, the handler function, the URI parser class, the
    owning API, the mimetype, the operation id and the pythonic-params flag
    are all unchanged, whatever the decorated handler does. *)
Theorem invocation_leaves_adapter_unchanged
    (args : Args) (self : adapter) (w : World) :
  let self' := (__call__ args self w).1.2 in
  self' = self
  /\ FlaskOperation._operation _ _ _ self' = FlaskOperation._operation _ _ _ self
  /\ FlaskOperation._fn _ _ _ self' = FlaskOperation._fn _ _ _ self
  /\ FlaskOperation.uri_parser_class _ _ _ self' =
       FlaskOperation.uri_parser_class _ _ _ self
  /\ FlaskOperation.api _ _ _ self' = FlaskOperation.api _ _ _ self
  /\ FlaskOperation.mimetype _ _ _ self' = FlaskOperation.mimetype _ _ _ self
  /\ FlaskOperation.operation_id _ _ _ self' = FlaskOperation.operation_id _ _ _ self
  /\ FlaskOperation.pythonic_params _ _ _ self' =
       FlaskOperation.pythonic_params _ _ _ self.
Proof.
  assert (Hself : (__call__ args self w).1.2 = self).
  { rewrite __call___value, fn_value. cbn.
    now destruct (SyncDecorator _ _ _ _ _ _ _ args w). }
  cbn zeta. rewrite Hself. repeat split.
Qed.

(** The frame property is one of [__call__], not of methods at large: a
    method that assigns an attribute does change the adapter. *)
Lemma setattr_changes_adapter (self : adapter) (w : World) :
  FlaskOperation.pythonic_params _ _ _
    (FlaskOperation.setattr Callable URIParser Api World
       (fun s => FlaskOperation.mk _ _ _
          (FlaskOperation._operation _ _ _ s) (FlaskOperation._fn _ _ _ s)
          (FlaskOperation.uri_parser_class _ _ _ s) (FlaskOperation.api _ _ _ s)
          (FlaskOperation.mimetype _ _ _ s) (FlaskOperation.operation_id _ _ _ s)
          (negb (FlaskOperation.pythonic_params _ _ _ s)))
       self w).1.2
  <> FlaskOperation.pythonic_params _ _ _ self.
Proof. cbn. now destruct (FlaskOperation.pythonic_params _ _ _ self). Qed.

(** [from_operation] copies the operation's members into the adapter. *)
Lemma from_operation_fields
    (operation : AbstractOperation.t Callable URIParser Api) (pythonic_params : bool) :
  let self := FlaskOperation.from_operation Callable URIParser Api operation pythonic_params in
  FlaskOperation._operation _ _ _ self = operation
  /\ FlaskOperation._fn _ _ _ self = AbstractOperation.function _ _ _ operation
  /\ FlaskOperation.uri_parser_class _ _ _ self =
       AbstractOperation.uri_parser_class _ _ _ operation
  /\ FlaskOperation.api _ _ _ self = AbstractOperation.api _ _ _ operation
  /\ FlaskOperation.mimetype _ _ _ self = AbstractOperation.get_mimetype _ _ _ operation
  /\ FlaskOperation.operation_id _ _ _ self =
       AbstractOperation.operation_id _ _ _ operation
  /\ FlaskOperation.pythonic_params _ _ _ self = pythonic_params.
Proof. cbn. repeat split. Qed.

End AdapterFrame.

(** ** The properties at concrete inputs *)

(** A file sent with direct passthrough: still streamed, body None. *)
Lemma streamed_response_has_no_body_witness :
  exists cr,
    FlaskApi._framework_to_connexion_response Example.file_response PNone = Ok cr
    /\ ConnexionResponse.is_streamed cr = true
    /\ ConnexionResponse.body cr = PNone.
Proof.
  eexists. split; [reflexivity|]. split; [reflexivity|].
  apply (streamed_response_has_no_body Example.file_response PNone _ eq_refl eq_refl).
Defined.

(** The body [not json] under application/json is extracted as None. *)
Lemma get_body_json_is_silent_witness :
  Example.is_json_mimetype
    (ConnexionRequest.content_type Example.malformed_json_request) = true
  /\ loads Example.jsonifier (ConnexionRequest.data Example.malformed_json_request)
     = Raise ValueError
  /\ FlaskApi.get_body Example.is_json_mimetype Example.FORM_CONTENT_TYPES
       Example.jsonifier Example.malformed_json_request = Ok PNone.
Proof.
  split; [reflexivity|]. split; [reflexivity|].
  apply (proj2 (proj2 (get_body_json_is_silent Example.is_json_mimetype
                         Example.FORM_CONTENT_TYPES Example.jsonifier
                         Example.malformed_json_request eq_refl))
           ValueError eq_refl).
Defined.

(** The form post [a=1&b=2] is extracted as its form mapping. *)
Lemma get_body_form_returns_form_witness :
  Example.is_json_mimetype (ConnexionRequest.content_type Example.form_request) = false
  /\ (ConnexionRequest.mimetype Example.form_request ∈ Example.FORM_CONTENT_TYPES)
  /\ FlaskApi.get_body Example.is_json_mimetype Example.FORM_CONTENT_TYPES
       Example.jsonifier Example.form_request =
     Ok (PMultiDict [("a", "1"); ("b", "2")]).
Proof.
  assert (Hform : ConnexionRequest.mimetype Example.form_request
                  ∈ Example.FORM_CONTENT_TYPES) by apply list_elem_of_here.
  split; [reflexivity|]. split; [exact Hform|].
  apply (get_body_form_returns_form Example.is_json_mimetype
           Example.FORM_CONTENT_TYPES Example.jsonifier Example.form_request
           eq_refl Hform).
Defined.

(** A text/plain request with the body [hello] gives those bytes. *)
Lemma get_body_raw_bytes_or_None_witness :
  Example.is_json_mimetype
    (ConnexionRequest.content_type (Example.text_request "hello")) = false
  /\ (ConnexionRequest.mimetype (Example.text_request "hello")
      ∉ Example.FORM_CONTENT_TYPES)
  /\ FlaskApi.get_body Example.is_json_mimetype Example.FORM_CONTENT_TYPES
       Example.jsonifier (Example.text_request "hello") =
     Ok (PBytes (Example.b "hello")).
Proof.
  assert (Hform : ConnexionRequest.mimetype (Example.text_request "hello")
                  ∉ Example.FORM_CONTENT_TYPES).
  { unfold Example.FORM_CONTENT_TYPES. cbn.
    rewrite ?elem_of_cons, elem_of_nil. intuition discriminate. }
  split; [reflexivity|]. split; [exact Hform|].
  apply (proj1 (get_body_raw_bytes_or_None Example.is_json_mimetype
                  Example.FORM_CONTENT_TYPES Example.jsonifier
                  (Example.text_request "hello") eq_refl Hform)).
  discriminate.
Defined.

(** The handler result ([1, 2], 201): a JSON body with status 201. *)
Lemma get_response_handler_shapes_witness :
  is_flask_response (PList [PInt 1; PInt 2]) = false
  /\ AbstractAPI._serialize_data Example.jsonifier (PList [PInt 1; PInt 2]) PNone =
     Ok (PStr "[1, 2]", PStr "application/json")
  /\ FlaskApi.get_response Example.jsonifier
       (PTuple [PList [PInt 1; PInt 2]; PInt 201]) PNone =
     Ok (canonical (PStr "[1, 2]") (PStr "application/json") (PInt 201) (PDict [])).
Proof.
  split; [reflexivity|]. split; [reflexivity|].
  apply (proj1 (proj2 (proj2
           (get_response_handler_shapes Example.jsonifier
              (PList [PInt 1; PInt 2]) PNone (PStr "[1, 2]")
              (PStr "application/json") eq_refl eq_refl)))
           (PInt 201) eq_refl).
Defined.

(** A framework response with the status override 404 is passed through. *)
Lemma build_response_passes_framework_response_through_witness :
  FlaskApi._is_framework_response (PResponse Example.buffered_response) = true
  /\ FlaskApi._build_response Example._prepare_body_and_status_code
       PNone PNone PNone (PInt 404) (PResponse Example.buffered_response) =
     Ok (make_response (PResponse Example.buffered_response, PInt 404, PNone)).
Proof.
  split; [reflexivity|].
  apply (build_response_passes_framework_response_through
           Example._prepare_body_and_status_code
           PNone PNone PNone (PInt 404) (PResponse Example.buffered_response) eq_refl).
Defined.

(** Building from the list [1, 2] with nothing else given: content_type and
    headers are None and are left out of the constructor call. *)
Lemma build_response_omits_None_arguments_witness :
  FlaskApi._is_framework_response (PList [PInt 1; PInt 2]) = false
  /\ Example._prepare_body_and_status_code (PList [PInt 1; PInt 2]) PNone PNone =
     Ok (PStr "[1, 2]", PInt 200, PStr "application/json")
  /\ exists kwargs : gmap string pyval,
       FlaskApi._build_response Example._prepare_body_and_status_code
         PNone PNone PNone PNone (PList [PInt 1; PInt 2]) =
         Ok (response_class kwargs)
       /\ (forall k v,
             (k, v) ∈ FlaskApi.build_kwargs PNone (PStr "application/json")
                        PNone PNone (PStr "[1, 2]") (PInt 200) ->
             kwargs !! k = if is_None v then None else Some v)
       /\ (forall k,
             k ∉ ["mimetype"; "content_type"; "headers"; "response"; "status"] ->
             kwargs !! k = None).
Proof.
  split; [reflexivity|]. split; [reflexivity|].
  apply (build_response_omits_None_arguments Example._prepare_body_and_status_code
           PNone PNone PNone PNone (PList [PInt 1; PInt 2])
           (PStr "[1, 2]") (PInt 200) (PStr "application/json") eq_refl eq_refl).
Defined.

(** Building from the list [1, 2] with the mimetype text/plain supplied. *)
Lemma mimetype_precedence_witness :
  FlaskApi._is_framework_response (PList [PInt 1; PInt 2]) = false
  /\ Example._prepare_body_and_status_code
       (PList [PInt 1; PInt 2]) (PStr "text/plain") PNone =
     Ok (PStr "[1, 2]", PInt 200, PStr "text/plain")
  /\ exists kwargs : gmap string pyval,
       FlaskApi._build_response Example._prepare_body_and_status_code
         (PStr "text/plain") PNone PNone PNone (PList [PInt 1; PInt 2]) =
         Ok (response_class kwargs)
       /\ kwargs !! "mimetype" = Some (PStr "text/plain").
Proof.
  split; [reflexivity|]. split; [reflexivity|].
  destruct (proj1 (mimetype_precedence Example._prepare_body_and_status_code
                     (PStr "text/plain") PNone PNone PNone (PList [PInt 1; PInt 2])
                     (PStr "[1, 2]") (PInt 200) (PStr "text/plain")
                     (canonical PNone PNone PNone PNone) PNone eq_refl eq_refl))
    as [kwargs [Hcall [Hsupplied _]]].
  exists kwargs. split; [exact Hcall|]. apply Hsupplied. reflexivity.
Defined.

(** ** The testable properties of the specification, evaluated *)

Example handler_body_and_status :
  FlaskApi.get_response Example.jsonifier (PTuple [PStr "created"; PInt 201]) PNone =
  Ok (canonical (PStr "created") PNone (PInt 201) (PDict [])).
Proof. reflexivity. Qed.

Example handler_body_and_headers :
  FlaskApi.get_response Example.jsonifier
    (PTuple [PStr "ok"; PDict [("X-A", PStr "1")]]) PNone =
  Ok (canonical (PStr "ok") PNone (PInt 200) (PDict [("X-A", PStr "1")])).
Proof. reflexivity. Qed.

Example handler_body_status_headers :
  FlaskApi.get_response Example.jsonifier
    (PTuple [PList [PInt 1]; PInt 404; PDict [("X-B", PStr "2")]]) PNone =
  Ok (canonical (PStr "[1]") (PStr "application/json") (PInt 404)
        (PDict [("X-B", PStr "2")])).
Proof. reflexivity. Qed.

Example handler_body_and_header_collection :
  FlaskApi.get_response Example.jsonifier
    (PTuple [PStr "ok"; PHeaders [("X-A", "1")]]) PNone =
  Ok (canonical (PStr "ok") PNone (PInt 200) (PHeaders [("X-A", "1")])).
Proof. reflexivity. Qed.

Example handler_two_tuple_with_string_is_refused :
  FlaskApi.get_response Example.jsonifier (PTuple [PStr "x"; PStr "y"]) PNone =
  Raise TypeError.
Proof. reflexivity. Qed.

Example handler_framework_response_with_status :
  FlaskApi.get_response Example.jsonifier
    (PTuple [PResponse Example.buffered_response; PInt 202]) PNone =
  Ok {| ConnexionResponse.status_code := PInt 202;
        ConnexionResponse.mimetype := PStr "text/plain";
        ConnexionResponse.content_type := PStr "text/plain; charset=utf-8";
        ConnexionResponse.headers :=
          PHeaders [("Content-Type", "text/plain; charset=utf-8")];
        ConnexionResponse.body := PBytes (Example.b "hello");
        ConnexionResponse.is_streamed := false |}.
Proof. reflexivity. Qed.

Example generator_response_is_buffered :
  FlaskApi._framework_to_connexion_response Example.generator_response PNone =
  FlaskApi._framework_to_connexion_response Example.buffered_response PNone.
Proof. reflexivity. Qed.

Example empty_body_is_None :
  FlaskApi.get_body Example.is_json_mimetype Example.FORM_CONTENT_TYPES
    Example.jsonifier (Example.text_request EmptyString) = Ok PNone.
Proof. reflexivity. Qed.

Example json_true_document_is_decoded :
  FlaskApi.get_body Example.is_json_mimetype Example.FORM_CONTENT_TYPES
    Example.jsonifier
    {| ConnexionRequest.content_type := Some "application/json; charset=utf-8";
       ConnexionRequest.mimetype := "application/json";
       ConnexionRequest.data := Example.b "true";
       ConnexionRequest.form := [] |} = Ok (PBool true).
Proof. reflexivity. Qed.

Example build_from_list_keyword_arguments :
  FlaskApi._build_response Example._prepare_body_and_status_code
    PNone PNone PNone PNone (PList [PInt 1; PInt 2]) =
  Ok (response_class
        (list_to_map [("mimetype", PStr "application/json");
                      ("response", PStr "[1, 2]");
                      ("status", PInt 200)])).
Proof. vm_compute. reflexivity. Qed.

(** * Further properties of the code *)

(** ** What the conversion reads, copies and raises *)

Section ConversionBehaviour.

Import FlaskResponse FlaskResponseMethods.

(** X1: a direct-passthrough response is converted without its body being
    read: the conversion returns, with body None and the response's own
    [is_streamed], also for an iterator-backed response, on which
    [get_data] would raise. *)
Theorem passthrough_response_is_never_read (r : FlaskResponse.t) (mimetype : pyval) :
  direct_passthrough r = true ->
  FlaskApi._framework_to_connexion_response r mimetype =
    Ok {| ConnexionResponse.status_code := PInt (status_code r);
          ConnexionResponse.mimetype := of_option PStr (FlaskResponse.mimetype r);
          ConnexionResponse.content_type := of_option PStr (content_type r);
          ConnexionResponse.headers := PHeaders (headers r);
          ConnexionResponse.body := PNone;
          ConnexionResponse.is_streamed := is_streamed r |}
  /\ (is_sequence r = false -> get_data r = Raise RuntimeError).
Proof.
  intros Hdp. split.
  - unfold FlaskApi._framework_to_connexion_response. rewrite Hdp. reflexivity.
  - unfold get_data, _ensure_sequence, is_sequence.
    destruct (response r); [discriminate|]. now rewrite Hdp.
Qed.

(** X2: a response that is not direct passthrough, whose body is an
    iterator and whose implicit sequence conversion is switched off cannot
    be converted: the conversion raises the RuntimeError of [get_data]. *)
Theorem unreadable_iterator_is_not_converted
    (r : FlaskResponse.t) (mimetype : pyval) :
  direct_passthrough r = false ->
  is_sequence r = false ->
  implicit_sequence_conversion r = false ->
  FlaskApi._framework_to_connexion_response r mimetype = Raise RuntimeError.
Proof.
  intros Hdp Hseq Himp.
  unfold FlaskApi._framework_to_connexion_response, get_data, _ensure_sequence.
  unfold is_sequence in Hseq. rewrite Hdp. cbn.
  destruct (response r); [discriminate|].
  now rewrite Himp.
Qed.

(** X3: a response that is not direct passthrough is buffered whenever its
    conversion returns: the canonical body is the concatenation of all its
    chunks and the canonical response is not streamed, for a generator just
    as for a list. *)
Theorem readable_response_is_buffered
    (r : FlaskResponse.t) (mimetype : pyval) (cr : ConnexionResponse.t) :
  direct_passthrough r = false ->
  FlaskApi._framework_to_connexion_response r mimetype = Ok cr ->
  ConnexionResponse.body cr = PBytes (concat (chunks_of (response r)))
  /\ ConnexionResponse.is_streamed cr = false.
Proof.
  intros Hdp.
  unfold FlaskApi._framework_to_connexion_response, get_data, _ensure_sequence,
    is_streamed.
  rewrite Hdp. cbn.
  destruct (response r) as [cs|cs] eqn:Hresp; cbn.
  - rewrite ?Hresp. cbn. intros [= <-]. cbn. rewrite ?Hresp. auto.
  - destruct (implicit_sequence_conversion r); cbn; [|discriminate].
    intros [= <-]. cbn. auto.
Qed.

(** The body of a converted response is bytes or None, never a framework
    response. *)
Lemma converted_body_is_not_a_response
    (r : FlaskResponse.t) (mimetype : pyval) (cr : ConnexionResponse.t) :
  FlaskApi._framework_to_connexion_response r mimetype = Ok cr ->
  FlaskApi._is_framework_response (ConnexionResponse.body cr) = false.
Proof.
  unfold FlaskApi._framework_to_connexion_response.
  destruct (direct_passthrough r); cbn.
  - now intros [= <-].
  - destruct (get_data r) as [[data r']|e]; cbn; [|discriminate].
    now intros [= <-].
Qed.

End ConversionBehaviour.

(** ** Building from a canonical response *)

Section BuildingBehaviour.

Variable _prepare_body_and_status_code :
  pyval -> pyval -> pyval -> result (pyval * pyval * pyval).

Local Abbreviation _build_response :=
  (FlaskApi._build_response _prepare_body_and_status_code).
Local Abbreviation _connexion_to_framework_response :=
  (FlaskApi._connexion_to_framework_response _prepare_body_and_status_code).

(** X4: converting a framework response and building from the result goes
    through the serializing path, never the pass-through one, and the
    constructor then receives the original headers and the original content
    type (none when there was none), whatever the body preparation
    returns. *)
Theorem converted_response_is_rebuilt_with_its_headers
    (r : FlaskResponse.t) (mimetype default : pyval) (cr : ConnexionResponse.t)
    (data' status_code' serialized_mimetype : pyval) :
  FlaskApi._framework_to_connexion_response r mimetype = Ok cr ->
  _prepare_body_and_status_code (ConnexionResponse.body cr)
    (py_or (of_option PStr (FlaskResponse.mimetype r)) default)
    (PInt (FlaskResponse.status_code r)) =
    Ok (data', status_code', serialized_mimetype) ->
  exists kwargs : gmap string pyval,
    _connexion_to_framework_response cr default = Ok (response_class kwargs)
    /\ kwargs !! "headers" = Some (PHeaders (FlaskResponse.headers r))
    /\ kwargs !! "content_type" = PStr <$> FlaskResponse.content_type r.
Proof.
  intros Hconv Hprep.
  pose proof (converted_body_is_not_a_response _ _ _ Hconv) as Hbody.
  pose proof (framework_conversion_fields _ _ _ Hconv) as (Hs & Hm & Hc & Hh).
  unfold FlaskApi._connexion_to_framework_response.
  rewrite Hs, Hm, Hc, Hh.
  eexists. split.
  - apply (_build_response_serialized _ _ _ _ _ _ _ _ _ Hbody Hprep).
  - split.
    + rewrite (without_None_lookup _ "headers" (PHeaders (FlaskResponse.headers r))).
      * reflexivity.
      * rewrite build_kwargs_keys. exact constructor_keys_NoDup.
      * unfold FlaskApi.build_kwargs.
        do 2 apply list_elem_of_further. apply list_elem_of_here.
    + rewrite (without_None_lookup _ "content_type"
                 (of_option PStr (FlaskResponse.content_type r))).
      * now destruct (FlaskResponse.content_type r).
      * rewrite build_kwargs_keys. exact constructor_keys_NoDup.
      * unfold FlaskApi.build_kwargs.
        apply list_elem_of_further. apply list_elem_of_here.
Qed.

(** X5: when the data is not a framework response and the body
    preparation raises, [_build_response] raises the same exception: it
    comes out unchanged and no response is constructed. *)
Theorem build_response_propagates_preparation_error
    (mimetype content_type headers status_code data : pyval) (e : exn) :
  FlaskApi._is_framework_response data = false ->
  _prepare_body_and_status_code data mimetype status_code = Raise e ->
  _build_response mimetype content_type headers status_code data = Raise e.
Proof.
  intros Hdata Hprep. unfold FlaskApi._build_response.
  rewrite Hdata, Hprep. reflexivity.
Qed.

(** X6: on the pass-through path [_build_response] ignores the mimetype
    and the content type it is given: only the data, the status code and
    the headers reach Flask. *)
Theorem pass_through_ignores_mimetype_and_content_type
    (mimetype1 mimetype2 content_type1 content_type2 headers status_code data : pyval) :
  FlaskApi._is_framework_response data = true ->
  _build_response mimetype1 content_type1 headers status_code data =
  _build_response mimetype2 content_type2 headers status_code data.
Proof.
  intros Hdata. unfold FlaskApi._build_response. now rewrite Hdata.
Qed.

(** X7: the default mimetype handed to [_connexion_to_framework_response]
    has no influence on what is built when the canonical response has a
    mimetype of its own, or when its body is a framework response. *)
Theorem default_mimetype_is_a_fallback_only
    (response : ConnexionResponse.t) (default1 default2 : pyval) :
  py_truthy (ConnexionResponse.mimetype response) = true
  \/ FlaskApi._is_framework_response (ConnexionResponse.body response) = true ->
  _connexion_to_framework_response response default1 =
  _connexion_to_framework_response response default2.
Proof.
  unfold FlaskApi._connexion_to_framework_response.
  intros [Hown|Hbody].
  - unfold py_or. rewrite Hown. reflexivity.
  - unfold FlaskApi._build_response. rewrite Hbody. reflexivity.
Qed.

End BuildingBehaviour.

(** ** Extracted bodies *)

Section BodyBehaviour.

Variable is_json_mimetype : option string -> bool.
Variable FORM_CONTENT_TYPES : list string.
Variable jsonifier : Jsonifier.

Local Abbreviation get_body :=
  (FlaskApi.get_body is_json_mimetype FORM_CONTENT_TYPES jsonifier).

(** X8: for a request whose content type does not indicate JSON, the
    extracted body is None exactly when the mimetype is not form-encoded
    and the raw body is empty: a form post never gives None, not even with
    an empty form. *)
Theorem non_json_body_is_None_iff_raw_and_empty (request : ConnexionRequest.t) :
  is_json_mimetype (ConnexionRequest.content_type request) = false ->
  (get_body request = Ok PNone <->
   (ConnexionRequest.mimetype request ∉ FORM_CONTENT_TYPES)
   /\ ConnexionRequest.data request = []).
Proof.
  intros Hjson. unfold FlaskApi.get_body. rewrite Hjson.
  destruct (decide (ConnexionRequest.mimetype request ∈ FORM_CONTENT_TYPES))
    as [Hform|Hform].
  - rewrite bool_decide_eq_true_2 by exact Hform. cbn.
    split; [discriminate|]. now intros [Hnot _].
  - rewrite bool_decide_eq_false_2 by exact Hform.
    unfold ConnexionRequest.get_data, py_or. cbn.
    destruct (ConnexionRequest.data request); split; try easy.
Qed.

End BodyBehaviour.

(** ** Adapters, invocations and registered routes *)

Section AdapterBehaviour.

Variables Callable URIParser Api Args World : Type.
Variable SyncDecorator :
  AbstractOperation.t Callable URIParser Api ->
  URIParser -> Api -> bool -> bool -> bool -> Callable ->
  FlaskOperation.view Args World.

Local Abbreviation operation_t := (AbstractOperation.t Callable URIParser Api).
Local Abbreviation adapter := (FlaskOperation.t Callable URIParser Api).
Local Abbreviation __call__ :=
  (FlaskOperation.__call__ Callable URIParser Api Args World SyncDecorator).

Local Abbreviation decorated_view :=
  (Serving.decorated_view Callable URIParser Api Args World SyncDecorator).

Lemma __call___decorated (args : Args) (self : adapter) (w : World) :
  __call__ args self w =
  (let '(response, w') := decorated_view self args w in (response, self, w')).
Proof. reflexivity. Qed.

(** X9: invoking the adapter that [from_operation] builds runs the
    operation's own function, decorated for the operation's URI parser
    class and API with parameter binding and response handling both
    switched on and with the given pythonic-params flag. *)
Theorem adapter_of_operation_runs_its_function
    (operation : operation_t) (pythonic_params : bool) (args : Args) (w : World) :
  __call__ args
    (FlaskOperation.from_operation Callable URIParser Api operation pythonic_params) w =
  (let '(response, w') :=
     SyncDecorator operation
       (AbstractOperation.uri_parser_class _ _ _ operation)
       (AbstractOperation.api _ _ _ operation) true true pythonic_params
       (AbstractOperation.function _ _ _ operation) args w in
   (response,
    FlaskOperation.from_operation Callable URIParser Api operation pythonic_params,
    w')).
Proof. reflexivity. Qed.

(** X10: the adapter's mimetype and operation id take no part in an
    invocation: two adapters that differ only in these two attributes give
    the same response and the same effect on the world. *)
Theorem invocation_ignores_mimetype_and_operation_id
    (self : adapter) (mimetype' operation_id' : string) (args : Args) (w : World) :
  let other :=
    FlaskOperation.mk _ _ _
      (FlaskOperation._operation _ _ _ self) (FlaskOperation._fn _ _ _ self)
      (FlaskOperation.uri_parser_class _ _ _ self) (FlaskOperation.api _ _ _ self)
      mimetype' operation_id' (FlaskOperation.pythonic_params _ _ _ self) in
  (__call__ args other w).1.1 = (__call__ args self w).1.1
  /\ (__call__ args other w).2 = (__call__ args self w).2.
Proof.
  cbn zeta. rewrite !__call___decorated. unfold Serving.decorated_view. cbn.
  now destruct (SyncDecorator _ _ _ _ _ _ _ args w).
Qed.

(** X11: however many requests an adapter handles one after the other, it
    ends as it began, and the responses and the world are those of running
    the one decorated view function on the same requests in order. *)
Theorem invoke_all_runs_one_view
    (requests : list Args) (self : adapter) (w : World) :
  Serving.invoke_all Callable URIParser Api Args World SyncDecorator requests self w =
  (let '(responses, w') :=
     Serving.run_view Args World (decorated_view self) requests w in
   (responses, self, w')).
Proof.
  revert w. induction requests as [|args requests IH]; intros w; [reflexivity|].
  cbn [Serving.invoke_all Serving.run_view].
  rewrite __call___decorated.
  destruct (decorated_view self args w) as [response w'].
  rewrite IH.
  now destruct (Serving.run_view Args World (decorated_view self) requests w').
Qed.

End AdapterBehaviour.

Section Registration.

Variables Callable URIParser Api PathTypes Args World : Type.
Variable SyncDecorator :
  AbstractOperation.t Callable URIParser Api ->
  URIParser -> Api -> bool -> bool -> bool -> Callable ->
  FlaskOperation.view Args World.
Variable flaskify_endpoint : string -> pyval -> string.
Variable flaskify_path : string -> PathTypes -> string.
Variable str : pyval -> string.
Variable super_set_base_path :
  pyval -> FlaskApiObject.t Callable URIParser Api ->
  FlaskApiObject.t Callable URIParser Api.
Variable get_path_parameter_types :
  AbstractOperation.t Callable URIParser Api -> PathTypes.
Variable randomize_endpoint : AbstractOperation.t Callable URIParser Api -> pyval.

Local Abbreviation api_t := (FlaskApiObject.t Callable URIParser Api).
Local Abbreviation adapter := (FlaskOperation.t Callable URIParser Api).
Local Abbreviation route := (FlaskApiObject.route Callable URIParser Api).
Local Abbreviation _add_operation_internal :=
  (FlaskApiObject._add_operation_internal Callable URIParser Api PathTypes
     flaskify_endpoint flaskify_path get_path_parameter_types randomize_endpoint).
Local Abbreviation add_operations :=
  (FlaskApiObject.add_operations Callable URIParser Api PathTypes
     flaskify_endpoint flaskify_path get_path_parameter_types randomize_endpoint).
Local Abbreviation _set_base_path :=
  (FlaskApiObject._set_base_path Callable URIParser Api
     flaskify_endpoint str super_set_base_path).
Local Abbreviation rules_of :=
  (fun self : api_t =>
     Blueprint.url_rules adapter (FlaskApiObject.blueprint _ _ _ self)).

Local Abbreviation rule_of :=
  (FlaskApiObject.rule_of Callable URIParser Api PathTypes
     flaskify_endpoint flaskify_path get_path_parameter_types randomize_endpoint).

(** X12: registering an operation appends exactly one url rule, after the
    rules already there: it is bound to the one given method, and its view
    function, when invoked, runs the operation's function with the API's
    pythonic-params flag. *)
Theorem add_operation_appends_its_route
    (method path : string) (operation : AbstractOperation.t Callable URIParser Api)
    (self : api_t) :
  exists added : Blueprint.url_rule adapter,
    rules_of (_add_operation_internal method path operation self) =
      (rules_of self ++ [added])%list
    /\ Blueprint.methods adapter added = [method]
    /\ forall (args : Args) (w : World),
         FlaskOperation.__call__ Callable URIParser Api Args World SyncDecorator
           args (Blueprint.view_func adapter added) w =
         (let '(response, w') :=
            SyncDecorator operation
              (AbstractOperation.uri_parser_class _ _ _ operation)
              (AbstractOperation.api _ _ _ operation) true true
              (FlaskApiObject.pythonic_params _ _ _ self)
              (AbstractOperation.function _ _ _ operation) args w in
          (response, Blueprint.view_func adapter added, w')).
Proof.
  eexists. split; [reflexivity|]. split; reflexivity.
Qed.

Lemma add_operations_state (routes : list route) (self : api_t) :
  let self' := add_operations routes self in
  FlaskApiObject.base_path _ _ _ self' = FlaskApiObject.base_path _ _ _ self
  /\ FlaskApiObject.pythonic_params _ _ _ self' =
       FlaskApiObject.pythonic_params _ _ _ self
  /\ Blueprint.url_prefix adapter (FlaskApiObject.blueprint _ _ _ self') =
       Blueprint.url_prefix adapter (FlaskApiObject.blueprint _ _ _ self)
  /\ Blueprint.name adapter (FlaskApiObject.blueprint _ _ _ self') =
       Blueprint.name adapter (FlaskApiObject.blueprint _ _ _ self)
  /\ rules_of self' =
       (rules_of self
        ++ map (rule_of (FlaskApiObject.pythonic_params _ _ _ self)) routes)%list.
Proof.
  revert self. induction routes as [|[[method path] operation] routes IH];
    intros self; cbn zeta.
  - cbn. rewrite app_nil_r. auto.
  - unfold FlaskApiObject.add_operations. cbn [fold_left].
    specialize (IH (_add_operation_internal method path operation self)).
    cbn zeta in IH. unfold FlaskApiObject.add_operations in IH.
    destruct IH as (Hb & Hp & Hu & Hn & Hr).
    rewrite Hb, Hp, Hu, Hn, Hr. cbn.
    rewrite <- app_assoc. auto.
Qed.

(** X13: after the base path is set and any number of routes are
    registered, the blueprint is still mounted at the API's base path and
    named after it, and its url rules are exactly those of the registered
    routes, in order; rules of an earlier blueprint are gone. *)
Theorem blueprint_follows_base_path
    (base_path : pyval) (routes : list route) (self : api_t) :
  let configured := super_set_base_path base_path self in
  let self' := add_operations routes (_set_base_path base_path self) in
  FlaskApiObject.base_path _ _ _ self' = FlaskApiObject.base_path _ _ _ configured
  /\ Blueprint.url_prefix adapter (FlaskApiObject.blueprint _ _ _ self') =
       FlaskApiObject.base_path _ _ _ self'
  /\ Blueprint.name adapter (FlaskApiObject.blueprint _ _ _ self') =
       flaskify_endpoint (FlaskApiObject.base_path _ _ _ self') PNone
  /\ rules_of self' =
       map (rule_of (FlaskApiObject.pythonic_params _ _ _ configured)) routes.
Proof.
  cbn zeta.
  destruct (add_operations_state routes (_set_base_path base_path self))
    as (Hb & Hp & Hu & Hn & Hr).
  rewrite Hb, Hu, Hn, Hr. cbn. auto.
Qed.

End Registration.

(** ** The further properties at concrete inputs *)

Lemma passthrough_response_is_never_read_witness :
  FlaskResponse.direct_passthrough Example.file_response = true
  /\ (exists cr,
        FlaskApi._framework_to_connexion_response Example.file_response PNone = Ok cr
        /\ ConnexionResponse.body cr = PNone
        /\ ConnexionResponse.is_streamed cr = true)
  /\ FlaskResponseMethods.get_data Example.file_response = Raise RuntimeError.
Proof.
  destruct (passthrough_response_is_never_read Example.file_response PNone eq_refl)
    as [Hconv Hdata].
  split; [reflexivity|]. split.
  - eexists. split; [exact Hconv|]. split; reflexivity.
  - apply Hdata. reflexivity.
Defined.

Lemma unreadable_iterator_is_not_converted_witness :
  FlaskResponse.direct_passthrough Example.unreadable_response = false
  /\ FlaskResponse.is_sequence Example.unreadable_response = false
  /\ FlaskResponse.implicit_sequence_conversion Example.unreadable_response = false
  /\ FlaskApi._framework_to_connexion_response Example.unreadable_response PNone =
     Raise RuntimeError.
Proof.
  split; [reflexivity|]. split; [reflexivity|]. split; [reflexivity|].
  apply (unreadable_iterator_is_not_converted Example.unreadable_response PNone
           eq_refl eq_refl eq_refl).
Defined.

Lemma readable_response_is_buffered_witness :
  FlaskResponse.direct_passthrough Example.generator_response = false
  /\ exists cr,
       FlaskApi._framework_to_connexion_response Example.generator_response PNone = Ok cr
       /\ ConnexionResponse.body cr = PBytes (Example.b "hello")
       /\ ConnexionResponse.is_streamed cr = false.
Proof.
  split; [reflexivity|]. eexists. split; [reflexivity|].
  apply (readable_response_is_buffered Example.generator_response PNone _
           eq_refl eq_refl).
Defined.

Lemma converted_response_is_rebuilt_with_its_headers_witness :
  exists cr,
    FlaskApi._framework_to_connexion_response Example.buffered_response PNone = Ok cr
    /\ Example._prepare_body_and_status_code (ConnexionResponse.body cr)
         (PStr "text/plain") (PInt 200) =
       Ok (PBytes (Example.b "hello"), PInt 200, PStr "text/plain")
    /\ exists kwargs : gmap string pyval,
         FlaskApi._connexion_to_framework_response
           Example._prepare_body_and_status_code cr PNone =
           Ok (response_class kwargs)
         /\ kwargs !! "headers" =
              Some (PHeaders [("Content-Type", "text/plain; charset=utf-8")])
         /\ kwargs !! "content_type" = Some (PStr "text/plain; charset=utf-8").
Proof.
  eexists. split; [reflexivity|]. split; [reflexivity|].
  apply (converted_response_is_rebuilt_with_its_headers
           Example._prepare_body_and_status_code Example.buffered_response
           PNone PNone _ (PBytes (Example.b "hello")) (PInt 200) (PStr "text/plain")
           eq_refl eq_refl).
Defined.

Lemma build_response_propagates_preparation_error_witness :
  FlaskApi._is_framework_response (PMultiDict []) = false
  /\ Example._prepare_body_and_status_code (PMultiDict []) PNone PNone = Raise TypeError
  /\ FlaskApi._build_response Example._prepare_body_and_status_code
       PNone PNone PNone PNone (PMultiDict []) = Raise TypeError.
Proof.
  split; [reflexivity|]. split; [reflexivity|].
  apply (build_response_propagates_preparation_error
           Example._prepare_body_and_status_code
           PNone PNone PNone PNone (PMultiDict []) TypeError eq_refl eq_refl).
Defined.

Lemma pass_through_ignores_mimetype_and_content_type_witness :
  FlaskApi._is_framework_response (PResponse Example.buffered_response) = true
  /\ FlaskApi._build_response Example._prepare_body_and_status_code
       (PStr "application/json") (PStr "application/json; charset=utf-8")
       PNone (PInt 404) (PResponse Example.buffered_response) =
     FlaskApi._build_response Example._prepare_body_and_status_code
       PNone PNone PNone (PInt 404) (PResponse Example.buffered_response).
Proof.
  split; [reflexivity|].
  apply (pass_through_ignores_mimetype_and_content_type
           Example._prepare_body_and_status_code
           (PStr "application/json") PNone
           (PStr "application/json; charset=utf-8") PNone
           PNone (PInt 404) (PResponse Example.buffered_response) eq_refl).
Defined.

Lemma default_mimetype_is_a_fallback_only_witness :
  py_truthy (ConnexionResponse.mimetype
               (canonical (PStr "hello") (PStr "text/plain") PNone PNone)) = true
  /\ FlaskApi._connexion_to_framework_response Example._prepare_body_and_status_code
       (canonical (PStr "hello") (PStr "text/plain") PNone PNone) PNone =
     FlaskApi._connexion_to_framework_response Example._prepare_body_and_status_code
       (canonical (PStr "hello") (PStr "text/plain") PNone PNone)
       (PStr "application/json").
Proof.
  split; [reflexivity|].
  apply (default_mimetype_is_a_fallback_only Example._prepare_body_and_status_code
           (canonical (PStr "hello") (PStr "text/plain") PNone PNone)
           PNone (PStr "application/json")).
  left. reflexivity.
Defined.

Lemma non_json_body_is_None_iff_raw_and_empty_witness :
  Example.is_json_mimetype
    (ConnexionRequest.content_type (Example.text_request EmptyString)) = false
  /\ FlaskApi.get_body Example.is_json_mimetype Example.FORM_CONTENT_TYPES
       Example.jsonifier (Example.text_request EmptyString) = Ok PNone.
Proof.
  split; [reflexivity|].
  apply (proj2 (non_json_body_is_None_iff_raw_and_empty Example.is_json_mimetype
                  Example.FORM_CONTENT_TYPES Example.jsonifier
                  (Example.text_request EmptyString) eq_refl)).
  split; [|reflexivity].
  unfold Example.FORM_CONTENT_TYPES. cbn.
  rewrite ?elem_of_cons, elem_of_nil. intuition discriminate.
Defined.

(** Two requests served by the adapter of one operation. *)
Example two_requests_served :
  Serving.invoke_all string string string string Z
    ExampleOperation.counting_decorator ["first"; "second"]
    (FlaskOperation.from_operation string string string ExampleOperation.get_pets true)
    0 =
  ([Ok (FlaskResponse.set_response Example.buffered_response
          (FlaskResponse.Sequence [Example.b "api.get_pets"; Example.b "first"]));
    Ok (FlaskResponse.set_response Example.buffered_response
          (FlaskResponse.Sequence [Example.b "api.get_pets"; Example.b "second"]))],
   FlaskOperation.from_operation string string string ExampleOperation.get_pets true,
   2).
Proof. reflexivity. Qed.
